(** * pysqlscribe: validated column names and comparison expressions

    A shallow embedding of [pysqlscribe/column.py]: the [Expression] and
    [Column] classes, the validating [name] property and the operand
    dispatch of [_expression], followed by the properties proved of them. *)

From Stdlib Require Import String Ascii List ZArith Bool Lia.
From Stdlib Require Import DecimalString DecimalZ DecimalPos.
Import ListNotations.
Local Open Scope string_scope.

(** ** The fragment of the Python runtime the module relies on *)

Module py.

(** The exceptions that can leave the code of [column.py].
    [InvalidColumnNameException] is the class declared on line 9 of the
    module, the others are builtins. *)
Inductive exn : Type :=
| InvalidColumnNameException (msg : string)
| NotImplementedError (msg : string)
| TypeError (msg : string)
| AttributeError (msg : string)
| ValueError (msg : string).

(** A method body: it runs on the receiver's state, returns a value or
    raises, and leaves a receiver state behind.  A raise does not roll
    back what was assigned before it. *)
Definition method (Self A : Type) : Type := Self -> (exn + A) * Self.

Definition ret {Self A} (a : A) : method Self A :=
  fun self => (inr a, self).

Definition raise {Self A} (e : exn) : method Self A :=
  fun self => (inl e, self).

Definition bind {Self A B} (m : method Self A) (k : A -> method Self B)
  : method Self B :=
  fun self =>
    match m self with
    | (inl e, self') => (inl e, self')
    | (inr a, self') => k a self'
    end.

(** An expression that may raise but does not touch the receiver. *)
Definition lift {Self A} (r : exn + A) : method Self A :=
  fun self => (r, self).

Definition outcome {Self A} (m : method Self A) (self : Self) : exn + A :=
  fst (m self).

Definition state_after {Self A} (m : method Self A) (self : Self) : Self :=
  snd (m self).

(** Truth value of [None] / an object without [__bool__] and [__len__]. *)
Definition truthy {A} (o : option A) : bool :=
  match o with Some _ => true | None => false end.

(** The decimal numeral of an integer, ["-"] first when negative. *)
Definition decimal (z : Z) : string := NilZero.string_of_int (Z.to_int z).

(** The number of digits of that numeral; the sign is not counted. *)
Definition digits (z : Z) : nat :=
  Decimal.nb_digits (Decimal.abs (Z.to_int z)).

(** The limit the interpreter puts by default on the digits of an integer
    converted to text ([sys.get_int_max_str_digits()]).  The module
    imports [typing.Self], so it runs on versions that have the limit. *)
Definition int_max_str_digits : nat := 4300.

Definition digits_exceeded : exn :=
  ValueError "Exceeds the limit (4300 digits) for integer string conversion; use sys.set_int_max_str_digits() to increase the limit".

(** [str(i)] for an [int]: the decimal numeral, or [ValueError] when the
    numeral has more digits than the limit. *)
Definition str_int (z : Z) : exn + string :=
  if (int_max_str_digits <? digits z)%nat
  then inl digits_exceeded
  else inr (decimal z).

(** [str(b)] for a [bool]. *)
Definition str_bool (b : bool) : string := if b then "True" else "False".

(** [c in s] for a character [c]. *)
Fixpoint occurs (c : ascii) (s : string) : bool :=
  match s with
  | EmptyString => false
  | String a rest => Ascii.eqb a c || occurs c rest
  end.

(** Decimal numerals: an optional minus sign, then one digit or more. *)
Definition is_digit (c : ascii) : bool :=
  let n := nat_of_ascii c in ((48 <=? n) && (n <=? 57))%nat.

Fixpoint digits_only (s : string) : bool :=
  match s with
  | EmptyString => true
  | String c rest => is_digit c && digits_only rest
  end.

Definition is_numeral (s : string) : bool :=
  match s with
  | EmptyString => false
  | String c rest =>
      if Ascii.eqb c "-"
      then negb (String.eqb rest "") && digits_only rest
      else digits_only s
  end.

(** The integer a decimal numeral denotes. *)
Definition read_int (s : string) : option Z :=
  option_map Z.of_int (NilZero.int_of_string s).

(** [repr(s)] for a [str] whose characters are code points below 256.
    The delimiter is the single quote, or the double quote when the text
    has a single quote and no double quote; the delimiter and the
    backslash are escaped, tab, line feed and carriage return are written
    [\t], [\n], [\r], and the other unprintable characters (controls,
    delete, 128-160 and the soft hyphen) as [\x] and two hex digits. *)
Definition single_quote : ascii := "039"%char.
Definition double_quote : ascii := "034"%char.
Definition backslash : ascii := "092"%char.

Definition hexdigit (n : nat) : ascii :=
  match n with
  | 0 => "0" | 1 => "1" | 2 => "2" | 3 => "3" | 4 => "4" | 5 => "5"
  | 6 => "6" | 7 => "7" | 8 => "8" | 9 => "9" | 10 => "a" | 11 => "b"
  | 12 => "c" | 13 => "d" | 14 => "e" | _ => "f"
  end%char.

Definition hex_escape (c : ascii) : string :=
  let n := nat_of_ascii c in
  String backslash
    (String "x" (String (hexdigit (n / 16)) (String (hexdigit (n mod 16)) ""))).

Definition repr_char (quote c : ascii) : string :=
  let n := nat_of_ascii c in
  if Ascii.eqb c quote || Ascii.eqb c backslash
  then String backslash (String c "")
  else if Ascii.eqb c "009" then String backslash "t"
  else if Ascii.eqb c "010" then String backslash "n"
  else if Ascii.eqb c "013" then String backslash "r"
  else if ((n <? 32) || (n =? 127))%nat then hex_escape c
  else if (n <? 127)%nat then String c ""
  else if ((n <? 161) || (n =? 173))%nat then hex_escape c
  else String c "".

Fixpoint repr_body (quote : ascii) (s : string) : string :=
  match s with
  | EmptyString => EmptyString
  | String c rest => repr_char quote c ++ repr_body quote rest
  end.

Definition repr_quote (s : string) : ascii :=
  if occurs single_quote s && negb (occurs double_quote s)
  then double_quote else single_quote.

Definition repr_str (s : string) : string :=
  let quote := repr_quote s in
  String quote (repr_body quote s ++ String quote "").

End py.

Declare Scope py_scope.
Delimit Scope py_scope with py.
Notation "x <- m ;; k" := (py.bind m (fun x => k))
  (at level 61, m at next level, right associativity) : py_scope.
Notation "m ;;; k" := (py.bind m (fun _ => k))
  (at level 61, right associativity) : py_scope.

(** ** Compiled regular expressions, as [column.py] uses them *)

Module re.

(** A match object; [group] is the text matched (group 0). *)
Record Match : Type := { group : string }.

(** A compiled pattern, the result of [re.compile].  Its [match] method
    returns a match object or [None]. *)
Record Pattern : Type := { match_ : string -> option Match }.

(** A pattern object used as a function, [p(arg)]: [re.Pattern] defines no
    [__call__], so the call raises. *)
Definition not_callable : py.exn :=
  py.TypeError "'re.Pattern' object is not callable".

Definition call {A} (p : Pattern) (arg : string) : py.exn + A :=
  inl not_callable.

(** A pattern anchored at both ends ([^...$]) over a recogniser. *)
Definition anchored (accepts : string -> bool) : Pattern :=
  {| match_ := fun s => if accepts s then Some {| group := s |} else None |}.

End re.

(** ** The two grammars of [pysqlscribe/regex_patterns.py] *)

Module regex_patterns.

Definition is_letter (c : ascii) : bool :=
  let n := nat_of_ascii c in
  ((65 <=? n) && (n <=? 90) || (97 <=? n) && (n <=? 122))%nat.

Definition is_name_start (c : ascii) : bool :=
  is_letter c || Ascii.eqb c "_".

Definition is_name_char (c : ascii) : bool :=
  is_name_start c || py.is_digit c.

(** Scanner for dotted names; [fresh] says a new segment must start here. *)
Fixpoint dotted_name (fresh : bool) (s : string) : bool :=
  match s with
  | EmptyString => negb fresh
  | String c rest =>
      if fresh then is_name_start c && dotted_name false rest
      else if is_name_char c then dotted_name false rest
      else Ascii.eqb c "." && dotted_name true rest
  end.

(** Modelled from the spec: the plain-identifier grammar.  The module
    [regex_patterns] that declares the pattern is not part of the sources;
    the spec describes it as a conventional SQL name of letters, digits and
    underscore that does not start with a digit, optionally with dotted
    qualification such as [schema.table.column]. *)
Definition is_plain_identifier (s : string) : bool := dotted_name true s.

Fixpoint strip_prefix (p s : string) : option string :=
  match p, s with
  | EmptyString, _ => Some s
  | String a p', String b s' => if Ascii.eqb a b then strip_prefix p' s' else None
  | String _ _, EmptyString => None
  end.

(** The text before a final [")"], when the text ends in one. *)
Fixpoint strip_closing (s : string) : option string :=
  match s with
  | EmptyString => None
  | String c EmptyString => if Ascii.eqb c ")" then Some EmptyString else None
  | String c rest => option_map (String c) (strip_closing rest)
  end.

Definition aggregate_keywords : list string :=
  ["COUNT"; "SUM"; "AVG"; "MIN"; "MAX"].

Definition is_call_of (keyword s : string) : bool :=
  match strip_prefix (keyword ++ "(") s with
  | Some rest =>
      match strip_closing rest with
      | Some argument => is_plain_identifier argument
      | None => false
      end
  | None => false
  end.

(** Modelled from the spec: the aggregate-call grammar, likewise declared
    in the absent module [regex_patterns].  The spec describes it as one of
    a fixed, small set of aggregate keywords ([COUNT], [SUM], [AVG], ...)
    followed by a parenthesized identifier. *)
Definition is_aggregate_call (s : string) : bool :=
  existsb (fun keyword => is_call_of keyword s) aggregate_keywords.

(** Modelled from the spec: the two process-wide pattern constants that
    [column.py] imports from the absent module [regex_patterns]; the spec
    calls them the plain-identifier pattern and the aggregate-call pattern. *)
Definition VALID_IDENTIFIER_REGEX : re.Pattern :=
  re.anchored is_plain_identifier.

Definition AGGREGATE_IDENTIFIER_REGEX : re.Pattern :=
  re.anchored is_aggregate_call.

End regex_patterns.

(** ** [pysqlscribe/column.py] *)

Module column.

Local Open Scope py_scope.

(** *** [class Expression] *)

Module Expression.

Record t : Type := { left : string; operator : string; right : string }.

(** [Expression(left, operator, right)]: [__init__] stores the three
    arguments. *)
Definition __init__ (left operator right : string) : t :=
  {| left := left; operator := operator; right := right |}.

(** [f"{self.left} {self.operator} {self.right}"] *)
Definition __str__ : py.method t string :=
  fun self =>
    (inr (left self ++ " " ++ operator self ++ " " ++ right self), self).

(** [f"Expression({self.left!r}, {self.operator!r}, {self.right!r})"] *)
Definition __repr__ : py.method t string :=
  fun self =>
    (inr ("Expression(" ++ py.repr_str (left self) ++ ", "
          ++ py.repr_str (operator self) ++ ", "
          ++ py.repr_str (right self) ++ ")"), self).

End Expression.

(** *** [class Column] *)

Module Column.

(** The instance dictionary: [_name] is absent until the setter has
    assigned it. *)
Record t : Type := { _name : option string }.

(** The operands a comparison can receive, by their class. *)
#[warnings="-register-all"]
Inductive pyobject : Type :=
| PyColumn (c : t)
| PyStr (s : string)
| PyInt (z : Z)
| PyBool (b : bool)
| PyFloat (mantissa exponent : Z)
| PyNone
| PyList (items : list pyobject).

Inductive pytype : Type :=
| Column_t | str_t | int_t | bool_t | float_t | NoneType_t | list_t.

Definition type_ (o : pyobject) : pytype :=
  match o with
  | PyColumn _ => Column_t
  | PyStr _ => str_t
  | PyInt _ => int_t
  | PyBool _ => bool_t
  | PyFloat _ _ => float_t
  | PyNone => NoneType_t
  | PyList _ => list_t
  end.

(** [bool] is a subclass of [int]; the other classes are unrelated. *)
Definition issubclass (a b : pytype) : bool :=
  match a, b with
  | Column_t, Column_t | str_t, str_t | int_t, int_t | bool_t, bool_t
  | float_t, float_t | NoneType_t, NoneType_t | list_t, list_t => true
  | bool_t, int_t => true
  | _, _ => false
  end.

Definition isinstance (o : pyobject) (cls : pytype) : bool :=
  issubclass (type_ o) cls.

(** The getter of the [name] property: [return self._name]. *)
Definition name : py.method t string :=
  fun self =>
    match _name self with
    | Some n => (inr n, self)
    | None =>
        (inl (py.AttributeError "'Column' object has no attribute '_name'"),
         self)
    end.

(** [self._name = value] *)
Definition set__name (value : string) : py.method t unit :=
  fun _ => (inr tt, {| _name := Some value |}).

Section validation.

Variables VALID_IDENTIFIER_REGEX AGGREGATE_IDENTIFIER_REGEX : re.Pattern.

(** The setter of the [name] property (lines 33-40).  [a or b] evaluates
    [b] only when [a] is falsy; [b] here is the pattern object applied as
    a function. *)
Definition name_setter (column_name : string) : py.method t unit :=
  accepted <- py.lift
    (if py.truthy (re.match_ VALID_IDENTIFIER_REGEX column_name)
     then inr true
     else re.call AGGREGATE_IDENTIFIER_REGEX column_name) ;;
  if negb accepted
  then py.raise (py.InvalidColumnNameException
                   ("Invalid column name " ++ column_name))
  else set__name column_name.

(** [__init__]: [self.name = name]. *)
Definition __init__ (name : string) : py.method t unit :=
  name_setter name.

(** [Column(name)]: a fresh instance without attributes is initialised;
    the caller receives it only if [__init__] returns. *)
Definition new (name : string) : py.exn + t :=
  match __init__ name {| _name := None |} with
  | (inl e, _) => inl e
  | (inr _, self) => inr self
  end.

End validation.

(** [_expression] (lines 42-51).  The arms follow the [isinstance] tests in
    their order: [Column], then [str], then [int], which a [bool] passes
    too. *)
Definition _expression (operator : string) (other : pyobject)
  : py.method t Expression.t :=
  match other with
  | PyColumn o =>
      l <- name ;;
      r <- py.lift (py.outcome name o) ;;
      py.ret (Expression.__init__ l operator r)
  | PyStr s =>
      l <- name ;;
      py.ret (Expression.__init__ l operator ("'" ++ s ++ "'"))
  | PyInt z =>
      l <- name ;;
      r <- py.lift (py.str_int z) ;;
      py.ret (Expression.__init__ l operator r)
  | PyBool b =>
      l <- name ;;
      py.ret (Expression.__init__ l operator (py.str_bool b))
  | PyFloat _ _ | PyNone | PyList _ =>
      py.raise (py.NotImplementedError
        "Columns can only be compared to other columns or fixed string values")
  end.

Definition __str__ : py.method t string := name.

Definition __eq__ (other : pyobject) := _expression "=" other.
Definition __lt__ (other : pyobject) := _expression "<" other.
Definition __gt__ (other : pyobject) := _expression ">" other.
Definition __le__ (other : pyobject) := _expression "<=" other.
Definition __ge__ (other : pyobject) := _expression ">=" other.

(** The five comparison operations by the names the spec gives them. *)
Inductive comparison_operation : Type :=
| equals | lessThan | greaterThan | lessOrEqual | greaterOrEqual.

Definition symbol (op : comparison_operation) : string :=
  match op with
  | equals => "="
  | lessThan => "<"
  | greaterThan => ">"
  | lessOrEqual => "<="
  | greaterOrEqual => ">="
  end.

Definition compare (op : comparison_operation) (other : pyobject)
  : py.method t Expression.t :=
  match op with
  | equals => __eq__ other
  | lessThan => __lt__ other
  | greaterThan => __gt__ other
  | lessOrEqual => __le__ other
  | greaterOrEqual => __ge__ other
  end.

(** Everything a client can do with a [Column] it holds. *)
Inductive operation : Type :=
| Assign (column_name : string)
| Read
| Str
| Compare (op : comparison_operation) (other : pyobject).

Inductive answer : Type :=
| Nothing
| Text (s : string)
| Expr (e : Expression.t).

Section operations.

Variables VALID_IDENTIFIER_REGEX AGGREGATE_IDENTIFIER_REGEX : re.Pattern.

Definition perform (o : operation) : py.method t answer :=
  match o with
  | Assign column_name =>
      name_setter VALID_IDENTIFIER_REGEX AGGREGATE_IDENTIFIER_REGEX
        column_name ;;;
      py.ret Nothing
  | Read => n <- name ;; py.ret (Text n)
  | Str => n <- __str__ ;; py.ret (Text n)
  | Compare op other => e <- compare op other ;; py.ret (Expr e)
  end.

(** The [Column] values a program can hold: those a constructor call
    returned, in any state later operations left them in. *)
Inductive live : t -> Prop :=
| live_new (column_name : string) (c : t) :
    new VALID_IDENTIFIER_REGEX AGGREGATE_IDENTIFIER_REGEX column_name = inr c ->
    live c
| live_perform (c : t) (o : operation) :
    live c -> live (py.state_after (perform o) c).

(** The name is set and one of the two patterns matches it. *)
Definition valid_name (c : t) : Prop :=
  exists n, _name c = Some n /\
    (py.truthy (re.match_ VALID_IDENTIFIER_REGEX n)
     || py.truthy (re.match_ AGGREGATE_IDENTIFIER_REGEX n) = true).

End operations.

End Column.

(** Sequencing of calls that may raise, outside any method. *)
Definition and_then {A B} (r : py.exn + A) (k : A -> py.exn + B)
  : py.exn + B :=
  match r with
  | inl e => inl e
  | inr a => k a
  end.

(** The message of the [NotImplementedError] of [_expression]. *)
Definition unsupported_operand : py.exn :=
  py.NotImplementedError
    "Columns can only be compared to other columns or fixed string values".

(** [Column(name)] with the patterns of [regex_patterns]. *)
Definition Column_ (name : string) : py.exn + Column.t :=
  Column.new regex_patterns.VALID_IDENTIFIER_REGEX
    regex_patterns.AGGREGATE_IDENTIFIER_REGEX name.

(** [str(receiver <op> other)], the rendering of a comparison. *)
Definition render_comparison (receiver : string)
  (op : Column.comparison_operation)
  (other : py.exn + Column.pyobject) : py.exn + string :=
  and_then (Column_ receiver) (fun c =>
  and_then other (fun o =>
  and_then (py.outcome (Column.compare op o) c) (fun e =>
  py.outcome Expression.__str__ e))).

End column.

(** ** Reading the debug form back *)

Module literal.

Definition unhex (c : ascii) : option nat :=
  let n := nat_of_ascii c in
  if ((48 <=? n) && (n <=? 57))%nat then Some (n - 48)
  else if ((97 <=? n) && (n <=? 102))%nat then Some (n - 87)
  else None.

(** The character an escape letter stands for. *)
Definition unescape (e : ascii) : option ascii :=
  if Ascii.eqb e "t" then Some "009"%char
  else if Ascii.eqb e "n" then Some "010"%char
  else if Ascii.eqb e "r" then Some "013"%char
  else if Ascii.eqb e py.backslash || Ascii.eqb e py.single_quote
          || Ascii.eqb e py.double_quote then Some e
  else None.

Definition push (c : option ascii) (r : option (string * string))
  : option (string * string) :=
  match c, r with
  | Some c, Some (text, after) => Some (String c text, after)
  | _, _ => None
  end.

(** Reads a string literal's body up to its closing [quote]: the text it
    denotes and what follows the quote. *)
Fixpoint read_body (quote : ascii) (s : string) : option (string * string) :=
  match s with
  | EmptyString => None
  | String c rest =>
      if Ascii.eqb c quote then Some (EmptyString, rest)
      else if Ascii.eqb c py.backslash then
        match rest with
        | EmptyString => None
        | String e rest' =>
            if Ascii.eqb e "x" then
              match rest' with
              | String h (String l rest'') =>
                  push (match unhex h, unhex l with
                        | Some a, Some b => Some (ascii_of_nat (16 * a + b))
                        | _, _ => None
                        end)
                       (read_body quote rest'')
              | _ => None
              end
            else push (unescape e) (read_body quote rest')
        end
      else push (Some c) (read_body quote rest)
  end.

Definition read_literal (s : string) : option (string * string) :=
  match s with
  | EmptyString => None
  | String q rest =>
      if Ascii.eqb q py.single_quote || Ascii.eqb q py.double_quote
      then read_body q rest else None
  end.

Definition expect (p : string) (r : option (string * string))
  : option (string * string) :=
  match r with
  | Some (text, after) =>
      option_map (pair text) (regex_patterns.strip_prefix p after)
  | None => None
  end.

(** Reads [Expression(<literal>, <literal>, <literal>)]. *)
Definition read_Expression (s : string) : option column.Expression.t :=
  match regex_patterns.strip_prefix "Expression(" s with
  | None => None
  | Some s1 =>
      match expect ", " (read_literal s1) with
      | None => None
      | Some (l, s2) =>
          match expect ", " (read_literal s2) with
          | None => None
          | Some (o, s3) =>
              match expect ")" (read_literal s3) with
              | Some (r, EmptyString) =>
                  Some (column.Expression.__init__ l o r)
              | _ => None
              end
          end
      end
  end.

(** Printable ASCII other than the single quote and the backslash: the
    characters [repr] copies as they are between single quotes. *)
Definition is_copied (c : ascii) : bool :=
  let n := nat_of_ascii c in
  ((32 <=? n) && (n <? 127))%nat
  && negb (Ascii.eqb c py.single_quote) && negb (Ascii.eqb c py.backslash).

Fixpoint all_copied (s : string) : bool :=
  match s with
  | EmptyString => true
  | String c rest => is_copied c && all_copied rest
  end.

End literal.


(** * Properties *)

Import column.

(** ** The validating setter and the constructor *)

Section setter_facts.

Variables VALID AGGREGATE : re.Pattern.

Lemma name_setter_match (s : string) (self : Column.t) :
  py.truthy (re.match_ VALID s) = true ->
  Column.name_setter VALID AGGREGATE s self
  = (inr tt, {| Column._name := Some s |}).
Proof.
  intros Hm. unfold Column.name_setter, py.bind, py.lift.
  rewrite Hm. reflexivity.
Qed.

Lemma name_setter_no_match (s : string) (self : Column.t) :
  py.truthy (re.match_ VALID s) = false ->
  Column.name_setter VALID AGGREGATE s self = (inl re.not_callable, self).
Proof.
  intros Hm. unfold Column.name_setter, py.bind, py.lift.
  rewrite Hm. reflexivity.
Qed.

Lemma new_match (s : string) :
  py.truthy (re.match_ VALID s) = true ->
  Column.new VALID AGGREGATE s = inr {| Column._name := Some s |}.
Proof.
  intros Hm. unfold Column.new, Column.__init__.
  rewrite name_setter_match by exact Hm. reflexivity.
Qed.

Lemma new_no_match (s : string) :
  py.truthy (re.match_ VALID s) = false ->
  Column.new VALID AGGREGATE s = inl re.not_callable.
Proof.
  intros Hm. unfold Column.new, Column.__init__.
  rewrite name_setter_no_match by exact Hm. reflexivity.
Qed.

(** What a successful construction tells about its argument. *)
Lemma new_inr (s : string) (c : Column.t) :
  Column.new VALID AGGREGATE s = inr c ->
  py.truthy (re.match_ VALID s) = true /\ c = {| Column._name := Some s |}.
Proof.
  intros H. destruct (py.truthy (re.match_ VALID s)) eqn:Hm.
  - rewrite new_match in H by exact Hm. split; congruence.
  - rewrite new_no_match in H by exact Hm. discriminate.
Qed.

End setter_facts.

(** ** The grammars of [regex_patterns] *)

Lemma anchored_truthy (accepts : string -> bool) (s : string) :
  py.truthy (re.match_ (re.anchored accepts) s) = accepts s.
Proof. unfold re.anchored; simpl. destruct (accepts s); reflexivity. Qed.

Lemma dotted_name_no_paren (s : string) (fresh : bool) :
  regex_patterns.dotted_name fresh s = true -> py.occurs "(" s = false.
Proof.
  revert fresh. induction s as [|a rest IH]; intros fresh H; simpl in *.
  - reflexivity.
  - destruct (Ascii.eqb a "(") eqn:Ea.
    + apply Ascii.eqb_eq in Ea. subst a.
      destruct fresh; discriminate H.
    + simpl. destruct fresh.
      * apply andb_true_iff in H. destruct H as [_ H]. exact (IH _ H).
      * destruct (regex_patterns.is_name_char a).
        -- exact (IH _ H).
        -- apply andb_true_iff in H. destruct H as [_ H]. exact (IH _ H).
Qed.

Lemma strip_prefix_occurs (c : ascii) (p s rest : string) :
  regex_patterns.strip_prefix p s = Some rest ->
  py.occurs c p = true -> py.occurs c s = true.
Proof.
  revert s. induction p as [|a p IH]; intros s H Hc; simpl in *.
  - discriminate.
  - destruct s as [|b s]; [discriminate|].
    destruct (Ascii.eqb a b) eqn:Eab; [|discriminate].
    apply Ascii.eqb_eq in Eab. subst b. simpl.
    destruct (Ascii.eqb a c); simpl in *; [reflexivity|].
    exact (IH _ H Hc).
Qed.

Lemma call_has_paren (keyword s : string) :
  In keyword regex_patterns.aggregate_keywords ->
  regex_patterns.is_call_of keyword s = true -> py.occurs "(" s = true.
Proof.
  intros Hin H. unfold regex_patterns.is_call_of in H.
  destruct (regex_patterns.strip_prefix (keyword ++ "(") s) as [rest|] eqn:Ep;
    [|discriminate].
  apply (strip_prefix_occurs _ _ _ _ Ep).
  simpl in Hin.
  repeat (destruct Hin as [<-|Hin]; [reflexivity|]). destruct Hin.
Qed.

(** No text belongs to both grammars: a call has a parenthesis, a dotted
    name has none. *)
Lemma aggregate_call_not_plain (s : string) :
  regex_patterns.is_aggregate_call s = true ->
  regex_patterns.is_plain_identifier s = false.
Proof.
  intros H. unfold regex_patterns.is_aggregate_call in H.
  apply existsb_exists in H. destruct H as [keyword [Hin Hcall]].
  pose proof (call_has_paren _ _ Hin Hcall) as Hp.
  destruct (regex_patterns.is_plain_identifier s) eqn:E; [|reflexivity].
  apply dotted_name_no_paren in E. congruence.
Qed.

Lemma aggregate_call_raises (s : string) :
  regex_patterns.is_aggregate_call s = true ->
  Column_ s = inl re.not_callable.
Proof.
  intros H. apply new_no_match.
  unfold regex_patterns.VALID_IDENTIFIER_REGEX.
  rewrite anchored_truthy. exact (aggregate_call_not_plain _ H).
Qed.

(** ** Construction *)

(** C1, as the code behaves: a name of the aggregate-call grammar is not a
    plain identifier, so the setter goes on to apply the aggregate pattern
    object as a function; the call raises [TypeError] and no [Column] is
    returned. *)
Theorem C1_aggregate_call_raises_TypeError (s : string) :
  py.truthy (re.match_ regex_patterns.AGGREGATE_IDENTIFIER_REGEX s) = true ->
  Column_ s = inl re.not_callable.
Proof.
  unfold regex_patterns.AGGREGATE_IDENTIFIER_REGEX.
  rewrite anchored_truthy. apply aggregate_call_raises.
Qed.

Lemma C1_witness_COUNT_id :
  py.truthy (re.match_ regex_patterns.AGGREGATE_IDENTIFIER_REGEX "COUNT(id)")
  = true
  /\ Column_ "COUNT(id)" = inl re.not_callable.
Proof.
  split; [reflexivity|].
  apply (C1_aggregate_call_raises_TypeError "COUNT(id)"). reflexivity.
Defined.

Example SUM_amount_raises :
  regex_patterns.is_aggregate_call "SUM(amount)" = true
  /\ Column_ "SUM(amount)" = inl re.not_callable.
Proof. split; reflexivity. Qed.

(** C2, as the code behaves: for a name that neither pattern matches the
    construction fails and returns no [Column], but the exception is the
    [TypeError] of the call of the pattern object; the
    [InvalidColumnNameException] is never raised. *)
Theorem C2_invalid_name_raises_TypeError
  (VALID AGGREGATE : re.Pattern) (s : string) :
  py.truthy (re.match_ VALID s) = false ->
  py.truthy (re.match_ AGGREGATE s) = false ->
  Column.new VALID AGGREGATE s = inl re.not_callable
  /\ (forall msg, Column.new VALID AGGREGATE s
                  <> inl (py.InvalidColumnNameException msg))
  /\ (forall c, Column.new VALID AGGREGATE s <> inr c).
Proof.
  intros Hv _. rewrite (new_no_match VALID AGGREGATE s Hv).
  repeat split; intros; discriminate.
Qed.

Lemma C2_witness_123abc :
  py.truthy (re.match_ regex_patterns.VALID_IDENTIFIER_REGEX "123abc") = false
  /\ py.truthy (re.match_ regex_patterns.AGGREGATE_IDENTIFIER_REGEX "123abc")
     = false
  /\ Column_ "123abc" = inl re.not_callable.
Proof.
  split; [reflexivity|]. split; [reflexivity|].
  apply (C2_invalid_name_raises_TypeError
           regex_patterns.VALID_IDENTIFIER_REGEX
           regex_patterns.AGGREGATE_IDENTIFIER_REGEX "123abc");
    reflexivity.
Defined.

Example empty_name_raises :
  regex_patterns.is_plain_identifier "" = false
  /\ regex_patterns.is_aggregate_call "" = false
  /\ Column_ "" = inl re.not_callable.
Proof. repeat split. Qed.

(** The exception of line 39 is dead code: whatever the two patterns are,
    no name and no receiver make the setter raise it. *)
Lemma name_setter_never_invalid (VALID AGGREGATE : re.Pattern)
  (s msg : string) (self : Column.t) :
  py.outcome (Column.name_setter VALID AGGREGATE s) self
  <> inl (py.InvalidColumnNameException msg).
Proof.
  unfold py.outcome.
  destruct (py.truthy (re.match_ VALID s)) eqn:Hm.
  - rewrite name_setter_match by exact Hm. discriminate.
  - rewrite name_setter_no_match by exact Hm. discriminate.
Qed.

(** C3: for every string the plain-identifier pattern matches, the
    construction of a [Column] succeeds, and the name read back from the
    constructed [Column], through the property and through [str], is the
    input string. *)
Theorem C3_plain_identifier_round_trips
  (VALID AGGREGATE : re.Pattern) (s : string) :
  py.truthy (re.match_ VALID s) = true ->
  exists c, Column.new VALID AGGREGATE s = inr c
            /\ py.outcome Column.name c = inr s
            /\ py.outcome Column.__str__ c = inr s.
Proof.
  intros Hm. exists {| Column._name := Some s |}.
  split; [exact (new_match VALID AGGREGATE s Hm)|]. split; reflexivity.
Qed.

Lemma C3_witness_user_id :
  py.truthy (re.match_ regex_patterns.VALID_IDENTIFIER_REGEX "user_id") = true
  /\ exists c, Column_ "user_id" = inr c
               /\ py.outcome Column.name c = inr "user_id"
               /\ py.outcome Column.__str__ c = inr "user_id".
Proof.
  split; [reflexivity|].
  apply (C3_plain_identifier_round_trips
           regex_patterns.VALID_IDENTIFIER_REGEX
           regex_patterns.AGGREGATE_IDENTIFIER_REGEX "user_id").
  reflexivity.
Defined.

Example orders_total_round_trips :
  regex_patterns.is_plain_identifier "orders.total" = true
  /\ and_then (Column_ "orders.total") (py.outcome Column.name)
     = inr "orders.total".
Proof. split; reflexivity. Qed.

(** ** What the operations do to the receiver *)

Lemma name_run (c : Column.t) (n : string) :
  Column._name c = Some n -> Column.name c = (inr n, c).
Proof. intros H. unfold Column.name. rewrite H. reflexivity. Qed.

Lemma name_state (c : Column.t) : py.state_after Column.name c = c.
Proof.
  unfold py.state_after, Column.name. destruct (Column._name c); reflexivity.
Qed.

Lemma compare_is_expression (op : Column.comparison_operation)
  (other : Column.pyobject) :
  Column.compare op other = Column._expression (Column.symbol op) other.
Proof. destruct op; reflexivity. Qed.

Lemma _expression_state (operator : string) (other : Column.pyobject)
  (c : Column.t) :
  py.state_after (Column._expression operator other) c = c.
Proof.
  unfold py.state_after.
  destruct other as [o|s|z|b|m x| |items];
    unfold Column._expression, py.bind, py.lift, py.outcome, py.ret,
      py.raise, Column.name;
    destruct (Column._name c); try reflexivity.
  - destruct (Column._name o); reflexivity.
  - destruct (py.str_int z); reflexivity.
Qed.

Section invariant.

Variables VALID AGGREGATE : re.Pattern.

(** An operation leaves the receiver as it was, or is an assignment of a
    name the plain pattern matches. *)
Lemma perform_state (o : Column.operation) (c : Column.t) :
  py.state_after (Column.perform VALID AGGREGATE o) c = c
  \/ exists s, o = Column.Assign s
               /\ py.truthy (re.match_ VALID s) = true
               /\ py.state_after (Column.perform VALID AGGREGATE o) c
                  = {| Column._name := Some s |}.
Proof.
  destruct o as [s| | |op other].
  - destruct (py.truthy (re.match_ VALID s)) eqn:Hm.
    + right. exists s. split; [reflexivity|]. split; [exact Hm|].
      unfold py.state_after, Column.perform, py.bind.
      rewrite name_setter_match by exact Hm. reflexivity.
    + left. unfold py.state_after, Column.perform, py.bind.
      rewrite name_setter_no_match by exact Hm. reflexivity.
  - left. unfold py.state_after, Column.perform, py.bind, Column.name.
    destruct (Column._name c); reflexivity.
  - left.
    unfold py.state_after, Column.perform, py.bind, Column.__str__,
      Column.name.
    destruct (Column._name c); reflexivity.
  - left. pose proof (_expression_state (Column.symbol op) other c) as H.
    unfold py.state_after in *. unfold Column.perform, py.bind.
    rewrite compare_is_expression.
    destruct (Column._expression (Column.symbol op) other c) as [[e|x] c'];
      simpl in *; exact H.
Qed.

Lemma perform_keeps_valid (o : Column.operation) (c : Column.t) :
  Column.valid_name VALID AGGREGATE c ->
  Column.valid_name VALID AGGREGATE
    (py.state_after (Column.perform VALID AGGREGATE o) c).
Proof.
  intros Hc. destruct (perform_state o c) as [->|[s [_ [Hm ->]]]].
  - exact Hc.
  - exists s. split; [reflexivity|]. rewrite Hm. reflexivity.
Qed.

(** A live [Column] has its name set, to a text the plain pattern
    matches. *)
Lemma live_named (c : Column.t) :
  Column.live VALID AGGREGATE c ->
  exists n, Column._name c = Some n
            /\ py.truthy (re.match_ VALID n) = true.
Proof.
  induction 1 as [s c Hnew|c o _ IH].
  - apply new_inr in Hnew. destruct Hnew as [Hm ->]. exists s. split;
      [reflexivity|exact Hm].
  - destruct (perform_state o c) as [->|[s [_ [Hm ->]]]].
    + exact IH.
    + exists s. split; [reflexivity|exact Hm].
Qed.

Lemma live_valid (c : Column.t) :
  Column.live VALID AGGREGATE c -> Column.valid_name VALID AGGREGATE c.
Proof.
  intros H. destruct (live_named c H) as [n [Hn Hm]].
  exists n. split; [exact Hn|]. rewrite Hm. reflexivity.
Qed.

Lemma live_name (c : Column.t) :
  Column.live VALID AGGREGATE c ->
  exists n, Column._name c = Some n /\ Column.name c = (inr n, c).
Proof.
  intros H. destruct (live_named c H) as [n [Hn _]].
  exists n. split; [exact Hn|exact (name_run c n Hn)].
Qed.

End invariant.

(** [Column("a")] and [Column("b")], used to instantiate the statements. *)
Lemma live_a :
  Column.live regex_patterns.VALID_IDENTIFIER_REGEX
    regex_patterns.AGGREGATE_IDENTIFIER_REGEX {| Column._name := Some "a" |}.
Proof. apply (Column.live_new _ _ "a"). reflexivity. Defined.

Lemma live_b :
  Column.live regex_patterns.VALID_IDENTIFIER_REGEX
    regex_patterns.AGGREGATE_IDENTIFIER_REGEX {| Column._name := Some "b" |}.
Proof. apply (Column.live_new _ _ "b"). reflexivity. Defined.

(** C8, as the code behaves: every live [Column] has a name that one of
    the two patterns matches, every operation keeps it so, and the
    assignment of a name that neither pattern matches raises and leaves
    the receiver with the name it had; the exception raised is the
    [TypeError] of the call of the pattern object, not
    [InvalidColumnNameException]. *)
Theorem C8_name_stays_valid
  (VALID AGGREGATE : re.Pattern) (c : Column.t) (o : Column.operation)
  (s : string) :
  Column.live VALID AGGREGATE c ->
  Column.valid_name VALID AGGREGATE c
  /\ Column.valid_name VALID AGGREGATE
       (py.state_after (Column.perform VALID AGGREGATE o) c)
  /\ (py.truthy (re.match_ VALID s) = false ->
      py.truthy (re.match_ AGGREGATE s) = false ->
      Column.perform VALID AGGREGATE (Column.Assign s) c
      = (inl re.not_callable, c)).
Proof.
  intros Hlive. pose proof (live_valid VALID AGGREGATE c Hlive) as Hv.
  split; [exact Hv|]. split; [exact (perform_keeps_valid _ _ o c Hv)|].
  intros Hm _. unfold Column.perform, py.bind.
  rewrite name_setter_no_match by exact Hm. reflexivity.
Qed.

Lemma C8_witness_reassign_123abc :
  Column.live regex_patterns.VALID_IDENTIFIER_REGEX
    regex_patterns.AGGREGATE_IDENTIFIER_REGEX {| Column._name := Some "a" |}
  /\ Column.perform regex_patterns.VALID_IDENTIFIER_REGEX
       regex_patterns.AGGREGATE_IDENTIFIER_REGEX (Column.Assign "123abc")
       {| Column._name := Some "a" |}
     = (inl re.not_callable, {| Column._name := Some "a" |}).
Proof.
  split; [exact live_a|].
  apply (C8_name_stays_valid regex_patterns.VALID_IDENTIFIER_REGEX
           regex_patterns.AGGREGATE_IDENTIFIER_REGEX
           {| Column._name := Some "a" |} Column.Read "123abc" live_a);
    reflexivity.
Defined.

(** ** The rendering of an expression *)

(** C9: for every [Expression], rendering returns the left text, the
    operator and the right text with one space between them, leaves the
    expression as it was, and a second rendering returns the same string
    as the first. *)
Theorem C9_render_is_pure (e : Expression.t) :
  Expression.__str__ e
  = (inr (Expression.left e ++ " " ++ Expression.operator e ++ " "
          ++ Expression.right e), e)
  /\ py.state_after Expression.__str__ e = e
  /\ py.outcome Expression.__str__ (py.state_after Expression.__str__ e)
     = py.outcome Expression.__str__ e
  /\ py.bind Expression.__str__
       (fun first => py.bind Expression.__str__
          (fun second => py.ret (String.eqb first second))) e
     = (inr true, e).
Proof.
  repeat split. unfold py.bind, Expression.__str__, py.ret.
  rewrite String.eqb_refl. reflexivity.
Qed.

(** ** Decimal numerals *)

Lemma string_of_uint_digits (d : Decimal.uint) :
  py.digits_only (NilEmpty.string_of_uint d) = true.
Proof. induction d; simpl; try reflexivity; exact IHd. Qed.

Lemma string_of_uint_nonempty (d : Decimal.uint) :
  d <> Decimal.Nil -> String.eqb (NilEmpty.string_of_uint d) "" = false.
Proof. destruct d; intros Hd; try (now destruct Hd); reflexivity. Qed.

Lemma string_of_uint_no_minus (d : Decimal.uint) :
  d <> Decimal.Nil ->
  py.is_numeral (NilEmpty.string_of_uint d) = true.
Proof.
  intros Hd. pose proof (string_of_uint_digits d) as H.
  destruct d; try (now destruct Hd); simpl in *; exact H.
Qed.

Lemma digits_no_quote (s : string) :
  py.digits_only s = true -> py.occurs "'" s = false.
Proof.
  induction s as [|a rest IH]; simpl; [reflexivity|].
  intros H. apply andb_true_iff in H. destruct H as [Ha Hr].
  rewrite (IH Hr). destruct (Ascii.eqb a "'") eqn:E; [|reflexivity].
  apply Ascii.eqb_eq in E. subst a. discriminate Ha.
Qed.

Lemma numeral_no_quote (s : string) :
  py.is_numeral s = true -> py.occurs "'" s = false.
Proof.
  destruct s as [|a rest]; [reflexivity|]. unfold py.is_numeral.
  destruct (Ascii.eqb a "-") eqn:E.
  - apply Ascii.eqb_eq in E. subst a. intros H.
    apply andb_true_iff in H. destruct H as [_ H].
    simpl. exact (digits_no_quote _ H).
  - apply digits_no_quote.
Qed.

(** The text [str] gives for an [int] is a decimal numeral. *)
Lemma decimal_is_numeral (z : Z) : py.is_numeral (py.decimal z) = true.
Proof.
  unfold py.decimal. destruct z as [|p|p]; simpl.
  - reflexivity.
  - pose proof (Unsigned.to_uint_nonnil p) as Hp.
    unfold NilZero.string_of_uint.
    destruct (Pos.to_uint p) eqn:E; try (now destruct Hp);
      rewrite <- E; apply string_of_uint_no_minus; rewrite E; discriminate.
  - pose proof (Unsigned.to_uint_nonnil p) as Hp.
    unfold NilZero.string_of_uint.
    destruct (Pos.to_uint p) eqn:E; try (now destruct Hp);
      rewrite <- E;
      rewrite string_of_uint_nonempty by (rewrite E; discriminate);
      simpl; apply string_of_uint_digits.
Qed.

(** Reading the numeral gives the integer back. *)
Lemma read_decimal (z : Z) : py.read_int (py.decimal z) = Some z.
Proof.
  unfold py.read_int, py.decimal.
  rewrite NilZero.isi.
  - simpl. f_equal. apply DecimalZ.of_to.
  - destruct z; simpl; try discriminate.
    intros [= H]. exact (Unsigned.to_uint_nonnil _ H).
  - destruct z; simpl; try discriminate.
    intros [= H]. exact (Unsigned.to_uint_nonnil _ H).
Qed.

Lemma length_string_of_uint (d : Decimal.uint) :
  String.length (NilEmpty.string_of_uint d) = Decimal.nb_digits d.
Proof. induction d; simpl; try reflexivity; now rewrite IHd. Qed.

(** [digits] counts the characters of the numeral, the sign apart. *)
Lemma length_decimal (z : Z) :
  String.length (py.decimal z)
  = (py.digits z + if (z <? 0)%Z then 1 else 0)%nat.
Proof.
  unfold py.decimal, py.digits. destruct z as [|p|p]; simpl.
  - reflexivity.
  - pose proof (Unsigned.to_uint_nonnil p) as Hp.
    unfold NilZero.string_of_uint. rewrite Nat.add_0_r.
    destruct (Pos.to_uint p) eqn:E; try (now destruct Hp);
      rewrite <- E; apply length_string_of_uint.
  - pose proof (Unsigned.to_uint_nonnil p) as Hp.
    unfold NilZero.string_of_uint. rewrite Nat.add_1_r. f_equal.
    destruct (Pos.to_uint p) eqn:E; try (now destruct Hp);
      rewrite <- E; apply length_string_of_uint.
Qed.

(** [str] of an [int] within and beyond the limit on digits. *)
Lemma str_int_within (z : Z) :
  (py.digits z <= py.int_max_str_digits)%nat ->
  py.str_int z = inr (py.decimal z).
Proof.
  intros H. unfold py.str_int.
  destruct (Nat.ltb_spec py.int_max_str_digits (py.digits z)) as [Hlt|_];
    [|reflexivity].
  exfalso. exact (Nat.lt_irrefl _ (Nat.lt_le_trans _ _ _ Hlt H)).
Qed.

Lemma str_int_beyond (z : Z) :
  (py.int_max_str_digits < py.digits z)%nat ->
  py.str_int z = inl py.digits_exceeded.
Proof.
  intros H. unfold py.str_int.
  destruct (Nat.ltb_spec py.int_max_str_digits (py.digits z)) as [_|Hle];
    [reflexivity|].
  exfalso. exact (Nat.lt_irrefl _ (Nat.lt_le_trans _ _ _ H Hle)).
Qed.

Lemma str_int_inr (z : Z) (text : string) :
  py.str_int z = inr text ->
  (py.digits z <= py.int_max_str_digits)%nat /\ text = py.decimal z.
Proof.
  unfold py.str_int.
  destruct (Nat.ltb_spec py.int_max_str_digits (py.digits z)) as [_|Hle];
    [discriminate|].
  intros [= <-]. split; [exact Hle|reflexivity].
Qed.





(** ** The comparison operations *)

Lemma compare_Column (op : Column.comparison_operation) (c o : Column.t)
  (n m : string) :
  Column._name c = Some n -> Column._name o = Some m ->
  Column.compare op (Column.PyColumn o) c
  = (inr {| Expression.left := n; Expression.operator := Column.symbol op;
            Expression.right := m |}, c).
Proof.
  intros Hn Hm. rewrite compare_is_expression. simpl.
  unfold py.bind, py.lift, py.outcome.
  rewrite (name_run c n Hn), (name_run o m Hm). reflexivity.
Qed.

Lemma compare_str (op : Column.comparison_operation) (c : Column.t)
  (n s : string) :
  Column._name c = Some n ->
  Column.compare op (Column.PyStr s) c
  = (inr {| Expression.left := n; Expression.operator := Column.symbol op;
            Expression.right := "'" ++ s ++ "'" |}, c).
Proof.
  intros Hn. rewrite compare_is_expression. simpl. unfold py.bind.
  rewrite (name_run c n Hn). reflexivity.
Qed.

Lemma compare_int_run (op : Column.comparison_operation) (c : Column.t)
  (n : string) (z : Z) :
  Column._name c = Some n ->
  Column.compare op (Column.PyInt z) c
  = match py.str_int z with
    | inl e => (inl e, c)
    | inr text =>
        (inr {| Expression.left := n;
                Expression.operator := Column.symbol op;
                Expression.right := text |}, c)
    end.
Proof.
  intros Hn. rewrite compare_is_expression.
  unfold Column._expression, py.bind, py.lift.
  rewrite (name_run c n Hn). destruct (py.str_int z); reflexivity.
Qed.

Lemma compare_int (op : Column.comparison_operation) (c : Column.t)
  (n : string) (z : Z) :
  Column._name c = Some n ->
  (py.digits z <= py.int_max_str_digits)%nat ->
  Column.compare op (Column.PyInt z) c
  = (inr {| Expression.left := n; Expression.operator := Column.symbol op;
            Expression.right := py.decimal z |}, c).
Proof.
  intros Hn Hz. rewrite (compare_int_run op c n z Hn).
  rewrite (str_int_within z Hz). reflexivity.
Qed.

Lemma compare_int_beyond (op : Column.comparison_operation) (c : Column.t)
  (n : string) (z : Z) :
  Column._name c = Some n ->
  (py.int_max_str_digits < py.digits z)%nat ->
  Column.compare op (Column.PyInt z) c = (inl py.digits_exceeded, c).
Proof.
  intros Hn Hz. rewrite (compare_int_run op c n z Hn).
  rewrite (str_int_beyond z Hz). reflexivity.
Qed.

Lemma compare_int_inr (op : Column.comparison_operation) (c : Column.t)
  (n : string) (z : Z) (e : Expression.t) :
  Column._name c = Some n ->
  Column.compare op (Column.PyInt z) c = (inr e, c) ->
  e = {| Expression.left := n; Expression.operator := Column.symbol op;
         Expression.right := py.decimal z |}.
Proof.
  intros Hn. rewrite (compare_int_run op c n z Hn).
  destruct (py.str_int z) as [x|text] eqn:E; [discriminate|].
  apply str_int_inr in E. destruct E as [_ ->]. intros [= <-]. reflexivity.
Qed.

Lemma compare_bool (op : Column.comparison_operation) (c : Column.t)
  (n : string) (b : bool) :
  Column._name c = Some n ->
  Column.compare op (Column.PyBool b) c
  = (inr {| Expression.left := n; Expression.operator := Column.symbol op;
            Expression.right := py.str_bool b |}, c).
Proof.
  intros Hn. rewrite compare_is_expression. simpl. unfold py.bind.
  rewrite (name_run c n Hn). reflexivity.
Qed.

(** The arms of [_expression] are the [isinstance] tests of the source. *)
Lemma isinstance_Column (other : Column.pyobject) :
  Column.isinstance other Column.Column_t = true <->
  exists o, other = Column.PyColumn o.
Proof.
  split.
  - destruct other; simpl; intros H; try discriminate H.
    eexists; reflexivity.
  - intros [x ->]. reflexivity.
Qed.

Lemma isinstance_str (other : Column.pyobject) :
  Column.isinstance other Column.str_t = true <->
  exists s, other = Column.PyStr s.
Proof.
  split.
  - destruct other; simpl; intros H; try discriminate H.
    eexists; reflexivity.
  - intros [x ->]. reflexivity.
Qed.

Lemma isinstance_int (other : Column.pyobject) :
  Column.isinstance other Column.int_t = true <->
  (exists z, other = Column.PyInt z) \/ (exists b, other = Column.PyBool b).
Proof.
  split.
  - destruct other; simpl; intros H; try discriminate H.
    + left; eexists; reflexivity.
    + right; eexists; reflexivity.
  - intros [[x ->]|[x ->]]; reflexivity.
Qed.

(** C4: in each of the five comparison operations with a [Column]
    operand, the expression produced has the receiver's own name as left
    text, the symbol of the operation as operator and the operand's name,
    as it is, as right text; [Column("a") == Column("b")] renders as
    [a = b]. *)
Theorem C4_column_operand
  (VALID AGGREGATE : re.Pattern) (op : Column.comparison_operation)
  (c o : Column.t) :
  Column.live VALID AGGREGATE c ->
  Column.live VALID AGGREGATE o ->
  (exists n m,
      py.outcome Column.name c = inr n
      /\ py.outcome Column.name o = inr m
      /\ Column.compare op (Column.PyColumn o) c
         = (inr {| Expression.left := n;
                   Expression.operator := Column.symbol op;
                   Expression.right := m |}, c))
  /\ render_comparison "a" Column.equals
       (and_then (Column_ "b") (fun b => inr (Column.PyColumn b)))
     = inr "a = b"
  /\ render_comparison "a" Column.lessThan
       (and_then (Column_ "b") (fun b => inr (Column.PyColumn b)))
     = inr "a < b".
Proof.
  intros Hc Ho.
  destruct (live_name VALID AGGREGATE c Hc) as [n [Hn Hrun]].
  destruct (live_name VALID AGGREGATE o Ho) as [m [Hm Hrun']].
  split; [|split; reflexivity].
  exists n, m. unfold py.outcome. rewrite Hrun, Hrun'.
  split; [reflexivity|]. split; [reflexivity|].
  exact (compare_Column op c o n m Hn Hm).
Qed.

Lemma C4_witness_a_b :
  Column.live regex_patterns.VALID_IDENTIFIER_REGEX
    regex_patterns.AGGREGATE_IDENTIFIER_REGEX {| Column._name := Some "a" |}
  /\ Column.live regex_patterns.VALID_IDENTIFIER_REGEX
       regex_patterns.AGGREGATE_IDENTIFIER_REGEX
       {| Column._name := Some "b" |}
  /\ exists n m,
       py.outcome Column.name {| Column._name := Some "a" |} = inr n
       /\ py.outcome Column.name {| Column._name := Some "b" |} = inr m
       /\ Column.compare Column.greaterOrEqual
            (Column.PyColumn {| Column._name := Some "b" |})
            {| Column._name := Some "a" |}
          = (inr {| Expression.left := n;
                    Expression.operator := ">=";
                    Expression.right := m |},
             {| Column._name := Some "a" |}).
Proof.
  split; [exact live_a|]. split; [exact live_b|].
  exact (proj1 (C4_column_operand _ _ Column.greaterOrEqual _ _
                  live_a live_b)).
Defined.

(** C5: in each comparison operation with a string operand, the right
    text of the expression produced is the operand between two single
    quotes, character for character, also when the operand itself has a
    quote in it; [Column("a") == "foo"] renders as [a = 'foo']. *)
Theorem C5_string_operand
  (VALID AGGREGATE : re.Pattern) (op : Column.comparison_operation)
  (c : Column.t) (s : string) :
  Column.live VALID AGGREGATE c ->
  (exists n,
      py.outcome Column.name c = inr n
      /\ Column.compare op (Column.PyStr s) c
         = (inr {| Expression.left := n;
                   Expression.operator := Column.symbol op;
                   Expression.right := "'" ++ s ++ "'" |}, c))
  /\ render_comparison "a" Column.equals (inr (Column.PyStr "foo"))
     = inr "a = 'foo'"
  /\ render_comparison "a" Column.equals (inr (Column.PyStr "it's"))
     = inr "a = 'it's'".
Proof.
  intros Hc. destruct (live_name VALID AGGREGATE c Hc) as [n [Hn Hrun]].
  split; [|split; reflexivity].
  exists n. unfold py.outcome. rewrite Hrun. split; [reflexivity|].
  exact (compare_str op c n s Hn).
Qed.

Lemma C5_witness_a_foo :
  Column.live regex_patterns.VALID_IDENTIFIER_REGEX
    regex_patterns.AGGREGATE_IDENTIFIER_REGEX {| Column._name := Some "a" |}
  /\ exists n,
       py.outcome Column.name {| Column._name := Some "a" |} = inr n
       /\ Column.compare Column.lessOrEqual (Column.PyStr "foo")
            {| Column._name := Some "a" |}
          = (inr {| Expression.left := n;
                    Expression.operator := "<=";
                    Expression.right := "'foo'" |},
             {| Column._name := Some "a" |}).
Proof.
  split; [exact live_a|].
  exact (proj1 (C5_string_operand _ _ Column.lessOrEqual _ "foo" live_a)).
Defined.




Example minus_120_renders :
  render_comparison "a" Column.greaterThan (inr (Column.PyInt (-120)))
  = inr "a > -120".
Proof. reflexivity. Qed.

(** C7: in each of the five comparison operations, an operand that is not
    an instance of [Column], of [str] or of [int] (a float, [None], a
    list) makes the operation raise [NotImplementedError]; no expression
    is produced and the receiver is left as it was. *)
Theorem C7_unsupported_operand
  (op : Column.comparison_operation) (other : Column.pyobject)
  (c : Column.t) :
  Column.isinstance other Column.Column_t = false ->
  Column.isinstance other Column.str_t = false ->
  Column.isinstance other Column.int_t = false ->
  Column.compare op other c = (inl unsupported_operand, c)
  /\ (forall e, py.outcome (Column.compare op other) c <> inr e).
Proof.
  intros HC Hs Hi. rewrite compare_is_expression.
  destruct other; simpl in *; try discriminate;
    (split; [reflexivity|intros e; discriminate]).
Qed.

Lemma C7_witness_float :
  Column.isinstance (Column.PyFloat 3 (-1)) Column.Column_t = false
  /\ Column.isinstance (Column.PyFloat 3 (-1)) Column.str_t = false
  /\ Column.isinstance (Column.PyFloat 3 (-1)) Column.int_t = false
  /\ Column.compare Column.equals (Column.PyFloat 3 (-1))
       {| Column._name := Some "a" |}
     = (inl unsupported_operand, {| Column._name := Some "a" |}).
Proof.
  repeat (split; [reflexivity|]).
  apply (C7_unsupported_operand Column.equals (Column.PyFloat 3 (-1))
           {| Column._name := Some "a" |}); reflexivity.
Defined.

Example list_operand_raises :
  map (fun op => render_comparison "a" op
                   (inr (Column.PyList [Column.PyInt 1; Column.PyStr "x"])))
      [Column.equals; Column.lessThan; Column.greaterThan;
       Column.lessOrEqual; Column.greaterOrEqual]
  = repeat (inl unsupported_operand) 5.
Proof. reflexivity. Qed.

(** C10: a boolean operand is an instance of [int] for the dispatch, so
    each comparison operation with it raises nothing and produces an
    expression whose right text is [True] or [False]. *)
Theorem C10_boolean_operand
  (VALID AGGREGATE : re.Pattern) (op : Column.comparison_operation)
  (c : Column.t) (b : bool) :
  Column.live VALID AGGREGATE c ->
  Column.isinstance (Column.PyBool b) Column.Column_t = false
  /\ Column.isinstance (Column.PyBool b) Column.str_t = false
  /\ Column.isinstance (Column.PyBool b) Column.int_t = true
  /\ exists n,
       py.outcome Column.name c = inr n
       /\ Column.compare op (Column.PyBool b) c
          = (inr {| Expression.left := n;
                    Expression.operator := Column.symbol op;
                    Expression.right := if b then "True" else "False" |}, c).
Proof.
  intros Hc. destruct (live_name VALID AGGREGATE c Hc) as [n [Hn Hrun]].
  repeat (split; [reflexivity|]).
  exists n. unfold py.outcome. rewrite Hrun. split; [reflexivity|].
  exact (compare_bool op c n b Hn).
Qed.

Lemma C10_witness_a_True :
  Column.live regex_patterns.VALID_IDENTIFIER_REGEX
    regex_patterns.AGGREGATE_IDENTIFIER_REGEX {| Column._name := Some "a" |}
  /\ exists n,
       py.outcome Column.name {| Column._name := Some "a" |} = inr n
       /\ Column.compare Column.equals (Column.PyBool true)
            {| Column._name := Some "a" |}
          = (inr {| Expression.left := n;
                    Expression.operator := "=";
                    Expression.right := "True" |},
             {| Column._name := Some "a" |}).
Proof.
  split; [exact live_a|].
  exact (proj2 (proj2 (proj2
    (C10_boolean_operand _ _ Column.equals _ true live_a)))).
Defined.

Example boolean_renders :
  render_comparison "a" Column.equals (inr (Column.PyBool false))
  = inr "a = False".
Proof. reflexivity. Qed.


(** ** The debug form *)

(** One escaped character reads back as itself. *)
Lemma read_body_repr_char (quote c : ascii) (tail : string) :
  quote = py.single_quote \/ quote = py.double_quote ->
  literal.read_body quote (py.repr_char quote c ++ tail)
  = literal.push (Some c) (literal.read_body quote tail).
Proof.
  intros [-> | ->];
    destruct c as [[] [] [] [] [] [] [] []]; reflexivity.
Qed.

Lemma append_assoc (a b c : string) : (a ++ b) ++ c = a ++ (b ++ c).
Proof. induction a as [|x a IH]; simpl; [reflexivity|]. now rewrite IH. Qed.

Lemma length_append (a b : string) :
  String.length (a ++ b) = String.length a + String.length b.
Proof. induction a as [|x a IH]; simpl; [reflexivity|]. now rewrite IH. Qed.

Lemma append_cancel_r (a b t : string) : a ++ t = b ++ t -> a = b.
Proof.
  revert b. induction a as [|x a IH]; intros [|y b] H; simpl in *.
  - reflexivity.
  - apply (f_equal String.length) in H. simpl in H.
    rewrite length_append in H. lia.
  - apply (f_equal String.length) in H. simpl in H.
    rewrite length_append in H. lia.
  - injection H as -> H. f_equal. exact (IH _ H).
Qed.

Lemma repr_quote_cases (s : string) :
  py.repr_quote s = py.single_quote \/ py.repr_quote s = py.double_quote.
Proof.
  unfold py.repr_quote.
  destruct (py.occurs py.single_quote s && negb (py.occurs py.double_quote s));
    [right|left]; reflexivity.
Qed.

Lemma read_body_repr_body (quote : ascii) (s tail : string) :
  quote = py.single_quote \/ quote = py.double_quote ->
  literal.read_body quote (py.repr_body quote s ++ String quote tail)
  = Some (s, tail).
Proof.
  intros Hq. induction s as [|c s IH].
  - simpl. rewrite Ascii.eqb_refl. reflexivity.
  - simpl py.repr_body. rewrite append_assoc.
    rewrite (read_body_repr_char quote c _ Hq), IH. reflexivity.
Qed.

(** A literal written by [repr] reads back as the text it was written
    from, whatever follows it. *)
Lemma read_literal_repr_str (s tail : string) :
  literal.read_literal (py.repr_str s ++ tail) = Some (s, tail).
Proof.
  unfold py.repr_str. pose proof (repr_quote_cases s) as Hq.
  set (q := py.repr_quote s) in *. clearbody q.
  change (literal.read_literal
            (String q ((py.repr_body q s ++ String q "") ++ tail))
          = Some (s, tail)).
  rewrite append_assoc. change (String q "" ++ tail) with (String q tail).
  unfold literal.read_literal.
  replace (Ascii.eqb q py.single_quote || Ascii.eqb q py.double_quote)
    with true by (destruct Hq as [-> | ->]; reflexivity).
  exact (read_body_repr_body q s tail Hq).
Qed.

Lemma strip_prefix_append (p tail : string) :
  regex_patterns.strip_prefix p (p ++ tail) = Some tail.
Proof.
  induction p as [|a p IH]; simpl; [reflexivity|].
  rewrite Ascii.eqb_refl. exact IH.
Qed.

Lemma expect_literal (s p tail : string) :
  literal.expect p (literal.read_literal (py.repr_str s ++ p ++ tail))
  = Some (s, tail).
Proof.
  rewrite read_literal_repr_str. unfold literal.expect.
  rewrite strip_prefix_append. reflexivity.
Qed.

(** X1: the debug form of an [Expression] determines its three fields:
    reading [Expression(...)] back, literal by literal, returns the
    expression it was written from, whatever characters the fields hold. *)
Theorem X1_repr_reads_back (e : Expression.t) :
  and_then (py.outcome Expression.__repr__ e)
           (fun text => inr (literal.read_Expression text))
  = inr (Some e).
Proof.
  destruct e as [l o r].
  unfold py.outcome, Expression.__repr__, and_then, literal.read_Expression.
  cbn [fst Expression.left Expression.operator Expression.right].
  rewrite strip_prefix_append.
  rewrite (expect_literal l ", "), (expect_literal o ", ").
  change (py.repr_str r ++ ")") with (py.repr_str r ++ ")" ++ "").
  rewrite expect_literal. reflexivity.
Qed.

Lemma repr_char_copied (c : ascii) :
  literal.is_copied c = true -> py.repr_char py.single_quote c = String c "".
Proof.
  destruct c as [[] [] [] [] [] [] [] []]; intros H;
    (reflexivity || discriminate H).
Qed.

Lemma copied_not_quote (c : ascii) :
  literal.is_copied c = true -> Ascii.eqb c py.single_quote = false.
Proof.
  unfold literal.is_copied. intros H.
  destruct (Ascii.eqb c py.single_quote); [|reflexivity].
  rewrite andb_false_r in H. discriminate H.
Qed.

Lemma all_copied_no_quote (s : string) :
  literal.all_copied s = true -> py.occurs py.single_quote s = false.
Proof.
  induction s as [|c s IH]; simpl; [reflexivity|].
  intros H. apply andb_true_iff in H. destruct H as [Hc Hs].
  rewrite (copied_not_quote c Hc), (IH Hs). reflexivity.
Qed.

Lemma repr_body_copied (s : string) :
  literal.all_copied s = true -> py.repr_body py.single_quote s = s.
Proof.
  induction s as [|c s IH]; simpl; [reflexivity|].
  intros H. apply andb_true_iff in H. destruct H as [Hc Hs].
  rewrite (repr_char_copied c Hc), (IH Hs). reflexivity.
Qed.

(** A text of printable ASCII without single quote and backslash is
    written as it is, between single quotes. *)
Lemma repr_str_copied (s : string) :
  literal.all_copied s = true -> py.repr_str s = "'" ++ s ++ "'".
Proof.
  intros H. unfold py.repr_str, py.repr_quote.
  rewrite (all_copied_no_quote s H). simpl.
  rewrite (repr_body_copied s H). reflexivity.
Qed.

Lemma name_char_copied (c : ascii) :
  regex_patterns.is_name_char c = true -> literal.is_copied c = true.
Proof.
  destruct c as [[] [] [] [] [] [] [] []]; intros H;
    (reflexivity || discriminate H).
Qed.

Lemma dotted_name_copied (s : string) (fresh : bool) :
  regex_patterns.dotted_name fresh s = true -> literal.all_copied s = true.
Proof.
  revert fresh. induction s as [|a rest IH]; intros fresh H; simpl in *.
  - reflexivity.
  - destruct fresh.
    + apply andb_true_iff in H. destruct H as [Ha H].
      rewrite (IH _ H), andb_true_r. apply name_char_copied.
      unfold regex_patterns.is_name_char. rewrite Ha. reflexivity.
    + destruct (regex_patterns.is_name_char a) eqn:Ea.
      * rewrite (IH _ H), andb_true_r. exact (name_char_copied a Ea).
      * apply andb_true_iff in H. destruct H as [Ha H].
        apply Ascii.eqb_eq in Ha. subst a. rewrite (IH _ H). reflexivity.
Qed.

Lemma digit_copied (c : ascii) :
  py.is_digit c = true -> literal.is_copied c = true.
Proof.
  destruct c as [[] [] [] [] [] [] [] []]; intros H;
    (reflexivity || discriminate H).
Qed.

Lemma digits_copied (s : string) :
  py.digits_only s = true -> literal.all_copied s = true.
Proof.
  induction s as [|c s IH]; simpl; [reflexivity|].
  intros H. apply andb_true_iff in H. destruct H as [Hc Hs].
  rewrite (digit_copied c Hc), (IH Hs). reflexivity.
Qed.

Lemma numeral_copied (s : string) :
  py.is_numeral s = true -> literal.all_copied s = true.
Proof.
  destruct s as [|a rest]; [reflexivity|]. unfold py.is_numeral.
  destruct (Ascii.eqb a "-") eqn:E.
  - apply Ascii.eqb_eq in E. subst a. intros H.
    apply andb_true_iff in H. destruct H as [_ H].
    simpl. exact (digits_copied _ H).
  - apply digits_copied.
Qed.

Lemma symbol_copied (op : Column.comparison_operation) :
  literal.all_copied (Column.symbol op) = true.
Proof. destruct op; reflexivity. Qed.

(** The debug form when the three fields are copied as they are. *)
Lemma repr_copied_fields (e : Expression.t) :
  literal.all_copied (Expression.left e) = true ->
  literal.all_copied (Expression.operator e) = true ->
  literal.all_copied (Expression.right e) = true ->
  py.outcome Expression.__repr__ e
  = inr ("Expression(" ++ ("'" ++ Expression.left e ++ "'") ++ ", "
         ++ ("'" ++ Expression.operator e ++ "'") ++ ", "
         ++ ("'" ++ Expression.right e ++ "'") ++ ")").
Proof.
  intros Hl Ho Hr. unfold py.outcome, Expression.__repr__.
  cbn [fst]. rewrite (repr_str_copied _ Hl), (repr_str_copied _ Ho),
    (repr_str_copied _ Hr). reflexivity.
Qed.

(** X2: with the grammars of [regex_patterns], a comparison of a live
    [Column] with a live [Column] or with an integer of at most 4300
    digits returns an expression whose debug form is the three fields as
    they are, each between single quotes: no character of a name, an
    operator or a numeral is escaped. *)
Theorem X2_debug_form_of_comparison
  (op : Column.comparison_operation) (c : Column.t)
  (other : Column.pyobject) :
  Column.live regex_patterns.VALID_IDENTIFIER_REGEX
    regex_patterns.AGGREGATE_IDENTIFIER_REGEX c ->
  ((exists o, other = Column.PyColumn o
              /\ Column.live regex_patterns.VALID_IDENTIFIER_REGEX
                   regex_patterns.AGGREGATE_IDENTIFIER_REGEX o)
   \/ (exists z, other = Column.PyInt z
                 /\ (py.digits z <= py.int_max_str_digits)%nat)) ->
  exists e,
    Column.compare op other c = (inr e, c)
    /\ py.outcome Expression.__repr__ e
       = inr ("Expression(" ++ ("'" ++ Expression.left e ++ "'") ++ ", "
              ++ ("'" ++ Expression.operator e ++ "'") ++ ", "
              ++ ("'" ++ Expression.right e ++ "'") ++ ")").
Proof.
  intros Hc Hother.
  destruct (live_named _ _ c Hc) as [n [Hn Hmatch]].
  unfold regex_patterns.VALID_IDENTIFIER_REGEX in Hmatch.
  rewrite anchored_truthy in Hmatch.
  apply dotted_name_copied in Hmatch.
  destruct Hother as [[o [-> Ho]]|[z [-> Hz]]].
  - destruct (live_named _ _ o Ho) as [m [Hm Hmatch']].
    unfold regex_patterns.VALID_IDENTIFIER_REGEX in Hmatch'.
    rewrite anchored_truthy in Hmatch'.
    apply dotted_name_copied in Hmatch'.
    eexists. split; [exact (compare_Column op c o n m Hn Hm)|].
    apply repr_copied_fields; simpl;
      [exact Hmatch|apply symbol_copied|exact Hmatch'].
  - eexists. split; [exact (compare_int op c n z Hn Hz)|].
    apply repr_copied_fields; simpl;
      [exact Hmatch|apply symbol_copied|].
    apply numeral_copied, decimal_is_numeral.
Qed.

Lemma X2_witness_a_b :
  Column.live regex_patterns.VALID_IDENTIFIER_REGEX
    regex_patterns.AGGREGATE_IDENTIFIER_REGEX {| Column._name := Some "a" |}
  /\ exists e,
       Column.compare Column.lessThan
         (Column.PyColumn {| Column._name := Some "b" |})
         {| Column._name := Some "a" |}
       = (inr e, {| Column._name := Some "a" |})
       /\ py.outcome Expression.__repr__ e
          = inr ("Expression(" ++ ("'" ++ Expression.left e ++ "'") ++ ", "
                 ++ ("'" ++ Expression.operator e ++ "'") ++ ", "
                 ++ ("'" ++ Expression.right e ++ "'") ++ ")").
Proof.
  split; [exact live_a|].
  apply (X2_debug_form_of_comparison Column.lessThan
           {| Column._name := Some "a" |}
           (Column.PyColumn {| Column._name := Some "b" |}) live_a).
  left. exists {| Column._name := Some "b" |}. split; [reflexivity|].
  exact live_b.
Defined.

Example debug_form_a_lt_b :
  and_then (Column_ "a") (fun a => and_then (Column_ "b") (fun b =>
  and_then (py.outcome (Column.__lt__ (Column.PyColumn b)) a)
           (py.outcome Expression.__repr__)))
  = inr "Expression('a', '<', 'b')".
Proof. reflexivity. Qed.

(** X3: the rendering does not determine the fields.  Moving
    [" <operator> "] and the text before it from the right field to the
    left field gives a different expression with the same rendering. *)
Theorem X3_render_is_ambiguous (l o r r' : string) :
  let e1 := Expression.__init__ l o (r ++ " " ++ o ++ " " ++ r') in
  let e2 := Expression.__init__ (l ++ " " ++ o ++ " " ++ r) o r' in
  e1 <> e2
  /\ py.outcome Expression.__str__ e1 = py.outcome Expression.__str__ e2.
Proof.
  intros e1 e2. split.
  - unfold e1, e2, Expression.__init__. intros [= H _].
    apply (f_equal String.length) in H. rewrite length_append in H.
    simpl in H. lia.
  - unfold py.outcome, Expression.__str__, e1, e2, Expression.__init__.
    cbn [fst Expression.left Expression.operator Expression.right].
    rewrite !append_assoc. reflexivity.
Qed.

(** ** More on the comparison operations *)

(** X4: a comparison never changes the receiver, whether it returns or
    raises and whatever the operand is; and any expression it returns has
    the symbol of the operation as operator and, as left text, the
    receiver's name. *)
Theorem X4_comparison_reads_only
  (op : Column.comparison_operation) (other : Column.pyobject)
  (c : Column.t) :
  py.state_after (Column.compare op other) c = c
  /\ (forall e, py.outcome (Column.compare op other) c = inr e ->
        Expression.operator e = Column.symbol op
        /\ py.outcome Column.name c = inr (Expression.left e)).
Proof.
  rewrite compare_is_expression. split; [apply _expression_state|].
  intros e. unfold py.outcome.
  destruct other as [o|s|z|b|m x| |items];
    unfold Column._expression, py.bind, py.lift, py.outcome, py.ret,
      py.raise, Column.name;
    destruct (Column._name c); cbn [fst]; try discriminate;
    try (intros [= <-]; split; reflexivity).
  - destruct (Column._name o); cbn [fst]; try discriminate.
    intros [= <-]; split; reflexivity.
  - destruct (py.str_int z); cbn [fst]; try discriminate.
    intros [= <-]; split; reflexivity.
Qed.

Lemma X4_witness_a_ge_7 :
  py.outcome (Column.compare Column.greaterOrEqual (Column.PyInt 7))
    {| Column._name := Some "a" |}
  = inr (Expression.__init__ "a" ">=" "7")
  /\ Expression.operator (Expression.__init__ "a" ">=" "7") = ">="
  /\ py.outcome Column.name {| Column._name := Some "a" |} = inr "a".
Proof.
  split; [reflexivity|].
  apply (proj2 (X4_comparison_reads_only Column.greaterOrEqual
                  (Column.PyInt 7) {| Column._name := Some "a" |})
               (Expression.__init__ "a" ">=" "7")).
  reflexivity.
Defined.

Lemma decimal_inj (z z' : Z) : py.decimal z = py.decimal z' -> z = z'.
Proof.
  intros H. apply (f_equal py.read_int) in H.
  rewrite !read_decimal in H. congruence.
Qed.

Lemma str_bool_not_numeral (b : bool) : py.is_numeral (py.str_bool b) = false.
Proof. destruct b; reflexivity. Qed.

(** What a literal operand puts in the right field, when the comparison
    returns. *)
Lemma compare_literal_right (op : Column.comparison_operation)
  (c : Column.t) (n : string) (a : Column.pyobject) (e : Expression.t) :
  Column._name c = Some n ->
  Column.compare op a c = (inr e, c) ->
  match a with
  | Column.PyStr s => Expression.right e = "'" ++ s ++ "'"
  | Column.PyInt z => Expression.right e = py.decimal z
  | Column.PyBool b => Expression.right e = py.str_bool b
  | _ => True
  end.
Proof.
  intros Hn H. destruct a as [?|s|z|t|? ?| |?]; try exact I.
  - rewrite (compare_str op c n s Hn) in H. now injection H as <-.
  - rewrite (compare_int_inr op c n z e Hn H). reflexivity.
  - rewrite (compare_bool op c n t Hn) in H. now injection H as <-.
Qed.

(** X5: string, integer and boolean operands are told apart by the
    expression produced: on a live [Column], two such operands for which
    the same operation returns the same expression are the same
    operand. *)
Theorem X5_literal_operands_are_told_apart
  (VALID AGGREGATE : re.Pattern) (op : Column.comparison_operation)
  (c : Column.t) (a b : Column.pyobject) (e : Expression.t) :
  Column.live VALID AGGREGATE c ->
  Column.isinstance a Column.str_t || Column.isinstance a Column.int_t
  = true ->
  Column.isinstance b Column.str_t || Column.isinstance b Column.int_t
  = true ->
  Column.compare op a c = (inr e, c) ->
  Column.compare op b c = (inr e, c) ->
  a = b.
Proof.
  intros Hc Ha Hb Hea Heb.
  destruct (live_name VALID AGGREGATE c Hc) as [n [Hn _]].
  pose proof (compare_literal_right op c n a e Hn Hea) as Ra.
  pose proof (compare_literal_right op c n b e Hn Heb) as Rb.
  destruct a as [?|s|z|t|? ?| |?]; try discriminate Ha;
    destruct b as [?|s'|z'|t'|? ?| |?]; try discriminate Hb;
    rewrite Ra in Rb; clear Ra Hea Heb.
  - f_equal. injection Rb as H. exact (append_cancel_r _ _ _ H).
  - pose proof (numeral_no_quote _ (decimal_is_numeral z')) as Hq.
    rewrite <- Rb in Hq. discriminate Hq.
  - destruct t'; discriminate Rb.
  - pose proof (numeral_no_quote _ (decimal_is_numeral z)) as Hq.
    rewrite Rb in Hq. discriminate Hq.
  - f_equal. exact (decimal_inj _ _ Rb).
  - pose proof (decimal_is_numeral z) as Hz. rewrite Rb in Hz.
    rewrite str_bool_not_numeral in Hz. discriminate Hz.
  - destruct t; discriminate Rb.
  - pose proof (decimal_is_numeral z') as Hz. rewrite <- Rb in Hz.
    rewrite str_bool_not_numeral in Hz. discriminate Hz.
  - destruct t, t'; (reflexivity || discriminate Rb).
Qed.

Lemma X5_witness_a_foo :
  Column.live regex_patterns.VALID_IDENTIFIER_REGEX
    regex_patterns.AGGREGATE_IDENTIFIER_REGEX {| Column._name := Some "a" |}
  /\ Column.compare Column.equals (Column.PyStr "foo")
       {| Column._name := Some "a" |}
     = (inr (Expression.__init__ "a" "=" "'foo'"),
        {| Column._name := Some "a" |})
  /\ Column.PyStr "foo" = Column.PyStr "foo".
Proof.
  split; [exact live_a|]. split; [reflexivity|].
  apply (X5_literal_operands_are_told_apart _ _ Column.equals
           {| Column._name := Some "a" |}
           (Column.PyStr "foo") (Column.PyStr "foo")
           (Expression.__init__ "a" "=" "'foo'") live_a);
    reflexivity.
Defined.

(** A [Column] operand is not told apart from a literal: the name [True]
    gives the expression of the boolean [True]. *)
Example column_named_True :
  and_then (Column_ "True") (fun t =>
    inr (render_comparison "a" Column.equals (inr (Column.PyColumn t))))
  = inr (render_comparison "a" Column.equals (inr (Column.PyBool true))).
Proof. reflexivity. Qed.

(** ** More on construction and assignment *)

(** X6: whatever the two patterns are, [Column(name)] returns exactly when
    the plain pattern matches the name, and then a [Column] holding that
    name; in every other case it raises the [TypeError] of the call of the
    pattern object.  The aggregate pattern never lets a name in. *)
Theorem X6_construction_decided_by_plain_pattern
  (VALID AGGREGATE : re.Pattern) (s : string) :
  (forall c, Column.new VALID AGGREGATE s = inr c <->
             py.truthy (re.match_ VALID s) = true
             /\ c = {| Column._name := Some s |})
  /\ (forall e, Column.new VALID AGGREGATE s = inl e <->
                py.truthy (re.match_ VALID s) = false
                /\ e = re.not_callable).
Proof.
  split; intros x; split.
  - apply new_inr.
  - intros [Hm ->]. exact (new_match VALID AGGREGATE s Hm).
  - intros H. destruct (py.truthy (re.match_ VALID s)) eqn:Hm.
    + rewrite new_match in H by exact Hm. discriminate H.
    + rewrite new_no_match in H by exact Hm. split; congruence.
  - intros [Hm ->]. exact (new_no_match VALID AGGREGATE s Hm).
Qed.

(** X7: the live [Column] values are exactly those whose name is set to a
    text the plain pattern matches. *)
Theorem X7_live_columns (VALID AGGREGATE : re.Pattern) (c : Column.t) :
  Column.live VALID AGGREGATE c <->
  exists n, c = {| Column._name := Some n |}
            /\ py.truthy (re.match_ VALID n) = true.
Proof.
  split.
  - intros H. destruct (live_named VALID AGGREGATE c H) as [n [Hn Hm]].
    exists n. split; [|exact Hm]. destruct c as [x]. simpl in Hn.
    now rewrite Hn.
  - intros [n [-> Hm]]. apply (Column.live_new _ _ n).
    exact (new_match VALID AGGREGATE n Hm).
Qed.

(** X8: assigning a name the plain pattern matches succeeds on any
    receiver, and the name read next is the name assigned, whatever the
    name was before. *)
Theorem X8_assign_then_read
  (VALID AGGREGATE : re.Pattern) (c : Column.t) (s : string) :
  py.truthy (re.match_ VALID s) = true ->
  Column.perform VALID AGGREGATE (Column.Assign s) c
  = (inr Column.Nothing, {| Column._name := Some s |})
  /\ py.outcome (Column.perform VALID AGGREGATE Column.Read)
       (py.state_after (Column.perform VALID AGGREGATE (Column.Assign s)) c)
     = inr (Column.Text s).
Proof.
  intros Hm.
  assert (Column.perform VALID AGGREGATE (Column.Assign s) c
          = (inr Column.Nothing, {| Column._name := Some s |})) as H.
  { unfold Column.perform, py.bind.
    rewrite name_setter_match by exact Hm. reflexivity. }
  split; [exact H|]. unfold py.state_after. rewrite H. reflexivity.
Qed.

Lemma X8_witness_rename_a_to_orders_total :
  py.truthy (re.match_ regex_patterns.VALID_IDENTIFIER_REGEX "orders.total")
  = true
  /\ py.outcome
       (Column.perform regex_patterns.VALID_IDENTIFIER_REGEX
          regex_patterns.AGGREGATE_IDENTIFIER_REGEX Column.Read)
       (py.state_after
          (Column.perform regex_patterns.VALID_IDENTIFIER_REGEX
             regex_patterns.AGGREGATE_IDENTIFIER_REGEX
             (Column.Assign "orders.total"))
          {| Column._name := Some "a" |})
     = inr (Column.Text "orders.total").
Proof.
  split; [reflexivity|].
  apply (X8_assign_then_read regex_patterns.VALID_IDENTIFIER_REGEX
           regex_patterns.AGGREGATE_IDENTIFIER_REGEX
           {| Column._name := Some "a" |} "orders.total").
  reflexivity.
Defined.

(** X9: assigning to a live [Column] the name it has succeeds and changes
    nothing: a name that is held always passes the validation again. *)
Theorem X9_reassigning_own_name
  (VALID AGGREGATE : re.Pattern) (c : Column.t) (n : string) :
  Column.live VALID AGGREGATE c ->
  py.outcome Column.name c = inr n ->
  Column.perform VALID AGGREGATE (Column.Assign n) c
  = (inr Column.Nothing, c).
Proof.
  intros Hc Hn.
  destruct (live_named VALID AGGREGATE c Hc) as [m [Hm Hmatch]].
  unfold py.outcome in Hn. rewrite (name_run c m Hm) in Hn.
  injection Hn as ->.
  unfold Column.perform, py.bind.
  rewrite name_setter_match by exact Hmatch.
  destruct c as [x]. simpl in Hm. rewrite Hm. reflexivity.
Qed.

Lemma X9_witness_a :
  Column.live regex_patterns.VALID_IDENTIFIER_REGEX
    regex_patterns.AGGREGATE_IDENTIFIER_REGEX {| Column._name := Some "a" |}
  /\ py.outcome Column.name {| Column._name := Some "a" |} = inr "a"
  /\ Column.perform regex_patterns.VALID_IDENTIFIER_REGEX
       regex_patterns.AGGREGATE_IDENTIFIER_REGEX (Column.Assign "a")
       {| Column._name := Some "a" |}
     = (inr Column.Nothing, {| Column._name := Some "a" |}).
Proof.
  split; [exact live_a|]. split; [reflexivity|].
  apply (X9_reassigning_own_name regex_patterns.VALID_IDENTIFIER_REGEX
           regex_patterns.AGGREGATE_IDENTIFIER_REGEX
           {| Column._name := Some "a" |} "a" live_a).
  reflexivity.
Defined.

(** X10: the exceptions an operation on a live [Column] can raise, when
    its operand, if a [Column], is live too: an assignment raises only the
    [TypeError] of the call of the pattern object, and only for a name the
    plain pattern does not match; a comparison raises only
    [NotImplementedError], for an operand that is no [Column], [str] or
    [int], or the [ValueError] of [str], for an integer operand of more
    than 4300 digits; reading the name and [str] of the [Column] never
    raise.  In particular no operation raises
    [InvalidColumnNameException] or [AttributeError]. *)
Theorem X10_exceptions_of_operations
  (VALID AGGREGATE : re.Pattern) (c : Column.t) (o : Column.operation)
  (e : py.exn) :
  Column.live VALID AGGREGATE c ->
  (forall op x, o = Column.Compare op (Column.PyColumn x) ->
                Column.live VALID AGGREGATE x) ->
  py.outcome (Column.perform VALID AGGREGATE o) c = inl e ->
  (e = re.not_callable
   /\ exists s, o = Column.Assign s
                /\ py.truthy (re.match_ VALID s) = false)
  \/ (e = unsupported_operand
      /\ exists op other,
           o = Column.Compare op other
           /\ Column.isinstance other Column.Column_t = false
           /\ Column.isinstance other Column.str_t = false
           /\ Column.isinstance other Column.int_t = false)
  \/ (e = py.digits_exceeded
      /\ exists op z,
           o = Column.Compare op (Column.PyInt z)
           /\ (py.int_max_str_digits < py.digits z)%nat).
Proof.
  intros Hc Hoperand.
  destruct (live_name VALID AGGREGATE c Hc) as [n [Hn Hrun]].
  unfold py.outcome.
  destruct o as [s| | |op other].
  - intros H. left. unfold Column.perform, py.bind in H.
    destruct (py.truthy (re.match_ VALID s)) eqn:Hm.
    + rewrite name_setter_match in H by exact Hm. discriminate H.
    + rewrite name_setter_no_match in H by exact Hm. simpl in H.
      injection H as <-. split; [reflexivity|]. exists s. split; auto.
  - unfold Column.perform, py.bind. rewrite Hrun. discriminate.
  - unfold Column.perform, py.bind, Column.__str__. rewrite Hrun.
    discriminate.
  - unfold Column.perform, py.bind.
    destruct other as [x|s|z|b|m x| |items].
    + destruct (live_name VALID AGGREGATE x (Hoperand op x eq_refl))
        as [m [Hm _]].
      rewrite (compare_Column op c x n m Hn Hm). discriminate.
    + rewrite (compare_str op c n s Hn). discriminate.
    + destruct (Nat.le_gt_cases (py.digits z) py.int_max_str_digits)
        as [Hz|Hz].
      * rewrite (compare_int op c n z Hn Hz). discriminate.
      * rewrite (compare_int_beyond op c n z Hn Hz). intros [= <-].
        right. right. split; [reflexivity|]. exists op, z. auto.
    + rewrite (compare_bool op c n b Hn). discriminate.
    + rewrite compare_is_expression. simpl. intros [= <-]. right. left.
      split; [reflexivity|]. exists op, (Column.PyFloat m x). auto.
    + rewrite compare_is_expression. simpl. intros [= <-]. right. left.
      split; [reflexivity|]. exists op, Column.PyNone. auto.
    + rewrite compare_is_expression. simpl. intros [= <-]. right. left.
      split; [reflexivity|]. exists op, (Column.PyList items). auto.
Qed.

Lemma X10_witness_compare_None :
  Column.live regex_patterns.VALID_IDENTIFIER_REGEX
    regex_patterns.AGGREGATE_IDENTIFIER_REGEX {| Column._name := Some "a" |}
  /\ py.outcome
       (Column.perform regex_patterns.VALID_IDENTIFIER_REGEX
          regex_patterns.AGGREGATE_IDENTIFIER_REGEX
          (Column.Compare Column.lessThan Column.PyNone))
       {| Column._name := Some "a" |}
     = inl unsupported_operand
  /\ ((unsupported_operand = re.not_callable
       /\ exists s, Column.Compare Column.lessThan Column.PyNone
                    = Column.Assign s
                    /\ py.truthy
                         (re.match_ regex_patterns.VALID_IDENTIFIER_REGEX s)
                       = false)
      \/ (unsupported_operand = unsupported_operand
          /\ exists op other,
               Column.Compare Column.lessThan Column.PyNone
               = Column.Compare op other
               /\ Column.isinstance other Column.Column_t = false
               /\ Column.isinstance other Column.str_t = false
               /\ Column.isinstance other Column.int_t = false)
      \/ (unsupported_operand = py.digits_exceeded
          /\ exists op z,
               Column.Compare Column.lessThan Column.PyNone
               = Column.Compare op (Column.PyInt z)
               /\ (py.int_max_str_digits < py.digits z)%nat)).
Proof.
  split; [exact live_a|]. split; [reflexivity|].
  apply (X10_exceptions_of_operations regex_patterns.VALID_IDENTIFIER_REGEX
           regex_patterns.AGGREGATE_IDENTIFIER_REGEX
           {| Column._name := Some "a" |}
           (Column.Compare Column.lessThan Column.PyNone)
           unsupported_operand live_a).
  - intros op x H. discriminate H.
  - reflexivity.
Defined.
